(** * OAuth router of fastapi-users: state token codec, authorize and
      callback handlers.

    Shallow embedding of [fastapi_users/router/oauth.py].  The handlers are
    [async] functions that talk to three collaborators (the OAuth provider
    client, the user manager and the authentication backend); they are
    embedded in a state-and-exception monad whose state carries the Python
    object store (the dictionaries the code mutates), the log of the calls
    made so far, and the outside world the collaborators act on. *)

From Stdlib Require Import ZArith Ascii String List Bool Lia.
From stdpp Require Import base option list gmap strings.

Local Open Scope Z_scope.
Local Open Scope string_scope.

(** ** Python values used by the router *)

(** [Dict[str, str]]: the custom data of a state token. *)
Abbreviation dict := (gmap string string) (only parsing).

(** [SecretType]: the signing secret, a [str] or a [SecretStr] holding one. *)
Abbreviation SecretType := string (only parsing).

(** ** PyJWT exception classes

    [import jwt] brings PyJWT's exception classes; the router names
    [jwt.DecodeError] in its [except] clause.  The classes that
    [jwt.decode] can raise, with the base class each one derives from
    ([jwt/exceptions.py]). *)
Module PyJWT.

Inductive exception_class : Type :=
  | PyJWTError
  | InvalidTokenError
  | DecodeError
  | InvalidSignatureError
  | ExpiredSignatureError
  | InvalidAudienceError
  | MissingRequiredClaimError.

#[global] Instance exception_class_eq_dec : EqDecision exception_class.
Proof. solve_decision. Defined.

(** [class C(B)]: the direct base class, [None] for the root (which derives
    from Python's [Exception]). *)
Definition base (c : exception_class) : option exception_class :=
  match c with
  | PyJWTError => None
  | InvalidTokenError => Some PyJWTError
  | DecodeError => Some InvalidTokenError
  | InvalidSignatureError => Some DecodeError
  | ExpiredSignatureError => Some InvalidTokenError
  | InvalidAudienceError => Some InvalidTokenError
  | MissingRequiredClaimError => Some InvalidTokenError
  end.

(** [issubclass(c, d)], walking up the chain of base classes; the chain is
    at most four classes long. *)
Fixpoint issubclass_upto (fuel : nat) (c d : exception_class) : bool :=
  bool_decide (c = d) ||
  match fuel, base c with
  | S fuel', Some b => issubclass_upto fuel' b d
  | _, _ => false
  end.

Definition issubclass : exception_class -> exception_class -> bool :=
  issubclass_upto 4.

End PyJWT.

(** ** Exceptions and outcomes *)

(** What a handler or a collaborator can raise. *)
Inductive exn : Type :=
  | JWTException (c : PyJWT.exception_class)
      (** an instance of a PyJWT exception class *)
  | HTTPException (status_code : Z) (detail : option string)
      (** [fastapi.HTTPException(status_code=..., detail=...)] *)
  | CollaboratorError (what : string)
      (** whatever a collaborator raises; passed through by the handlers *)
  | DanglingReference
      (** a reference to no object of the store; Python cannot build one *).

(** The result of running Python code: a value or a raised exception. *)
Inductive outcome (A : Type) : Type :=
  | Returned (a : A)
  | Raised (e : exn).
Arguments Returned {A} a.
Arguments Raised {A} e.

Definition is_raised {A} (r : outcome A) : bool :=
  match r with Raised _ => true | Returned _ => false end.

(** [isinstance(e, jwt.DecodeError)], the test of [except jwt.DecodeError]. *)
Definition isinstance_DecodeError (e : exn) : bool :=
  match e with
  | JWTException c => PyJWT.issubclass c PyJWT.DecodeError
  | _ => false
  end.

(** [status.HTTP_400_BAD_REQUEST] *)
Definition HTTP_400_BAD_REQUEST : Z := 400.

(** ** State tokens *)

(** Modelled from the spec: [fastapi_users/jwt.py] ([generate_jwt],
    [decode_jwt]) is not among the sources; only its test is.  The signing
    primitive is a trusted library, so a token is kept symbolic: either a
    string that is no JWT at all, or a payload together with its expiry
    and the secret it was signed with.  A forged or tampered token is one
    whose key is not the service's secret.  The payload is the mapping of
    its claims: neither the order of the entries in the serialised token
    nor the algorithm named in its header is represented. *)
Inductive StateToken : Type :=
  | Malformed (raw : string)
  | Signed (payload : dict) (exp : Z) (key : SecretType).

(** Modelled from the spec: [generate_jwt(data, secret, lifetime_seconds)]
    signs the mapping it is given with the secret and sets the expiry to
    now + lifetime (spec 4.1, issue).  Signing is taken to succeed: a
    failure of the signing library is not represented. *)
Definition generate_jwt (data : dict) (secret : SecretType)
    (lifetime_seconds : Z) (now : Z) : StateToken :=
  Signed data (now + lifetime_seconds) secret.

(** Modelled from the spec: [decode_jwt(encoded_jwt, secret, audience)]
    checks the signature, the expiry and that the audience claim is one of
    the expected audiences (spec 4.1, verify), and returns the payload.
    Each failed check raises the PyJWT exception of that check, which is
    what the [except jwt.DecodeError] of the callback handler filters
    on: a token that does not parse raises [DecodeError], a wrong
    signature [InvalidSignatureError], a token at or past its expiry
    [ExpiredSignatureError], an absent audience claim
    [MissingRequiredClaimError], another audience [InvalidAudienceError].
    The classes are those of the PyJWT library, which neither the sources
    nor the spec name check by check; PyJWT's other failures (a header
    that names another algorithm, [InvalidAlgorithmError]) have no token
    here. *)
Definition decode_jwt (encoded_jwt : StateToken) (secret : SecretType)
    (audience : list string) (now : Z) : outcome dict :=
  match encoded_jwt with
  | Malformed _ => Raised (JWTException PyJWT.DecodeError)
  | Signed payload exp key =>
      if bool_decide (key = secret) then
        if (exp <=? now)%Z then Raised (JWTException PyJWT.ExpiredSignatureError)
        else
          match payload !! "aud" with
          | None => Raised (JWTException PyJWT.MissingRequiredClaimError)
          | Some a =>
              if bool_decide (a ∈ audience) then Returned payload
              else Raised (JWTException PyJWT.InvalidAudienceError)
          end
      else Raised (JWTException PyJWT.InvalidSignatureError)
  end.

(** ** Records exchanged with the collaborators *)

(** [OAuth2Token]: the result of the code exchange.  The handler reads
    [token["access_token"]] by subscript and the other two with [.get]. *)
Record OAuth2Token : Type := {
  tok_access_token : string;
  tok_expires_at : option Z;
  tok_refresh_token : option string;
}.

(** [models.BaseOAuthAccount] as the callback handler builds it. *)
Record BaseOAuthAccount : Type := {
  oauth_name : string;
  access_token : string;
  expires_at : option Z;
  refresh_token : option string;
  account_id : string;
  account_email : string;
}.

(** [models.UD]: the handler reads nothing of a user but [is_active]. *)
Record User : Type := {
  user_id : string;
  user_email : string;
  is_active : bool;
}.

(** What the authorize handler returns:
    [Union[OAuth2AuthorizeResponse, RedirectResponse]]. *)
Inductive AuthorizeResult : Type :=
  | OAuth2AuthorizeResponse (authorization_url : string)
  | RedirectResponse (url : string).

(** ** Collaborators

    The three capability interfaces the router is built on.  A call acts on
    the outside world and either returns or raises. *)

(** [httpx_oauth.oauth2.BaseOAuth2], the OAuth provider client. *)
Class BaseOAuth2 (World : Type) : Type := {
  client_name : string;
  get_authorization_url :
    string -> StateToken -> option (list string) ->
    gmap string (option string) -> World -> outcome string * World;
  get_id_email : string -> World -> outcome (string * string) * World;
}.

(** [AuthenticationBackend] *)
Class AuthenticationBackend (World Strategy Response LoginResult : Type)
    : Type := {
  backend_name : string;
  login : Strategy -> User -> Response -> World -> outcome LoginResult * World;
}.

(** [BaseUserManager], the account resolver. *)
Class BaseUserManager (World Request : Type) : Type := {
  oauth_callback :
    BaseOAuthAccount -> Request -> World -> outcome User * World;
}.

(** Whether a name holds the separator of a route name. *)
Fixpoint contains_dot (s : string) : bool :=
  match s with
  | EmptyString => false
  | String c s' => bool_decide (c = "."%char) || contains_dot s'
  end.

(** ** A sample deployment

    Concrete collaborators to run the handlers on.  The world is the clock
    alone; requests are their base URL; the backend answers a session
    string. *)
Module Demo.

Definition github : BaseOAuth2 Z := {|
  client_name := "github";
  get_authorization_url := fun redirect_uri _ _ _ w =>
    (Returned ("https://github.example/authorize?redirect_uri=" ++ redirect_uri), w);
  get_id_email := fun _ w => (Returned ("42", "ada@example.org"), w);
|}.

Definition cookie : AuthenticationBackend Z unit unit string := {|
  backend_name := "cookie";
  login := fun _ user _ w => (Returned ("session:" ++ user_id user), w);
|}.

(** A resolver that answers the provider account as a user, active or
    not. *)
Definition resolver (active : bool) : BaseUserManager Z string := {|
  oauth_callback := fun account _ w =>
    (Returned {| user_id := account_id account;
                 user_email := account_email account;
                 is_active := active |}, w);
|}.

Definition audience : string := "fastapi-users:oauth-state".
Definition secret : SecretType := "s3cr3t".
Definition lifetime : Z := 3600.
Definition bad_credentials : string := "LOGIN_BAD_CREDENTIALS".

Definition url_for (request : string) (route : string) : string :=
  request ++ "/" ++ route.

Definition provider_token : OAuth2Token := {|
  tok_access_token := "gho_token";
  tok_expires_at := Some 7200;
  tok_refresh_token := None;
|}.

(** A provider that cannot be reached for the identity lookup. *)
Definition offline : BaseOAuth2 Z := {|
  client_name := "github";
  get_authorization_url := fun _ _ _ _ w =>
    (Raised (CollaboratorError "provider unreachable"), w);
  get_id_email := fun _ w =>
    (Raised (CollaboratorError "provider unreachable"), w + 30);
|}.

(** A resolver that refuses the account. *)
Definition refusing_resolver : BaseUserManager Z string := {|
  oauth_callback := fun _ _ w =>
    (Raised (CollaboratorError "UserAlreadyExists"), w + 1);
|}.

End Demo.

(** ** The handler monad *)

Section Router.

#[local] Set Default Proof Using "Type".

(** The outside world the collaborators read and change (provider, user
    database, sessions, clock), and the framework's opaque objects. *)
Context {World Request Response Strategy LoginResult : Type}.

(** [datetime.utcnow()], in seconds: the clock of the world. *)
Variable utcnow : World -> Z.

(** [fastapi_users.settings] and [ErrorCode] are not among the sources:
    their constants are taken as they come. *)
Variable STATE_TOKEN_AUDIENCE : string.
Variable TOKEN_LIFETIME : Z.
Variable LOGIN_BAD_CREDENTIALS : string.

(** One entry of the call log: a call the handler made, with its arguments
    and how it ended. *)
Inductive event : Type :=
  | GetAuthorizationUrl (redirect_uri : string) (state : StateToken)
      (scope : option (list string))
      (extras_params : gmap string (option string)) (res : outcome string)
  | GetIdEmail (token : string) (res : outcome (string * string))
  | DecodeJwt (state : StateToken) (res : outcome dict)
  | OAuthCallback (account : BaseOAuthAccount) (res : outcome User)
  | Login (user : User) (res : outcome LoginResult).

(** A reference to a dictionary of the store. *)
Definition ref : Type := nat.

Record machine : Type := {
  heap : list dict;
  trace : list event;
  world : World;
}.

(** The machine a request starts from: nothing allocated, nothing called. *)
Definition start (w : World) : machine :=
  {| heap := []; trace := []; world := w |}.

Definition M (A : Type) : Type := machine -> outcome A * machine.

Definition ret {A} (a : A) : M A := fun m => (Returned a, m).

Definition bind {A B} (c : M A) (k : A -> M B) : M B :=
  fun m =>
    match c m with
    | (Returned a, m') => k a m'
    | (Raised e, m') => (Raised e, m')
    end.

Definition raise {A} (e : exn) : M A := fun m => (Raised e, m).

(** [try: c  except <class>: h], for the exceptions [catches] selects. *)
Definition try_except {A} (c : M A) (catches : exn -> bool) (h : M A) : M A :=
  fun m =>
    match c m with
    | (Returned a, m') => (Returned a, m')
    | (Raised e, m') => if catches e then h m' else (Raised e, m')
    end.

(** A call to a collaborator: it acts on the world and the call is logged
    with its outcome. *)
Definition call {A} (f : World -> outcome A * World)
    (ev : outcome A -> event) : M A :=
  fun m =>
    let '(r, w') := f (world m) in
    (r, {| heap := heap m; trace := trace m ++ [ev r]; world := w' |}).

(** [{}]: a fresh, empty dictionary. *)
Definition new_dict : M ref :=
  fun m =>
    (Returned (length (heap m)),
     {| heap := heap m ++ [∅]; trace := trace m; world := world m |}).

(** [d[k] = v] *)
Definition setitem (d : ref) (k v : string) : M unit :=
  fun m =>
    match heap m !! d with
    | Some old =>
        (Returned tt,
         {| heap := <[d := <[k := v]> old]> (heap m);
            trace := trace m; world := world m |})
    | None => (Raised DanglingReference, m)
    end.

(** [generate_jwt] on a dictionary of the store, at the time of the call. *)
Definition generate_jwt_of (data : ref) (secret : SecretType)
    (lifetime_seconds : Z) : M StateToken :=
  fun m =>
    match heap m !! data with
    | Some d =>
        (Returned (generate_jwt d secret lifetime_seconds (utcnow (world m))),
         m)
    | None => (Raised DanglingReference, m)
    end.

(** [decode_jwt] at the time of the call; the verification is logged. *)
Definition decode_jwt_now (state : StateToken) (secret : SecretType)
    (audience : list string) : M dict :=
  fun m =>
    let r := decode_jwt state secret audience (utcnow (world m)) in
    (r, {| heap := heap m; trace := trace m ++ [DecodeJwt state r];
           world := world m |}).

Notation "x <- c ;; k" := (bind c (fun x => k))
  (at level 100, c at next level, right associativity).
Notation "c ;;; k" := (bind c (fun _ => k))
  (at level 100, right associativity).

(** ** [generate_state_token] *)

Definition generate_state_token (data : ref) (secret : SecretType)
    (lifetime_seconds : Z) : M StateToken :=
  setitem data "aud" STATE_TOKEN_AUDIENCE ;;;
  generate_jwt_of data secret lifetime_seconds.

(** ** [get_oauth_router] *)

Context (oauth_client : BaseOAuth2 World).
Context (backend : AuthenticationBackend World Strategy Response LoginResult).
Variable state_secret : SecretType.
Variable initial_redirect_url : option string.
Variable initial_follow_redirect : bool.

(** [request.url_for(name)]: the framework's reverse routing. *)
Variable url_for : Request -> string -> string.

Definition callback_route_name : string :=
  "oauth:" ++ client_name ++ "." ++ backend_name ++ ".callback".

(** The authorize handler (oauth.py, lines 57-86).  The state data is a
    dictionary of the store, since [generate_state_token] writes into it;
    the [extras_params] dictionary is built in the call's argument list
    and never written again, so it is passed as a value. *)
Definition authorize (request : Request) (redirect_url : option string)
    (follow_redirect : bool) (scopes : option (list string))
    (code_challenge code_challenge_method : option string)
    : M AuthorizeResult :=
  let authorize_redirect_url :=
    match redirect_url with
    | Some r => r
    | None =>
        match initial_redirect_url with
        | Some r => r
        | None => url_for request callback_route_name
        end
    end in
  state_data <- new_dict ;;
  state <- generate_state_token state_data state_secret TOKEN_LIFETIME ;;
  let extras_params : gmap string (option string) :=
    <["code_challenge_method" := code_challenge_method]>
      (<["code_challenge" := code_challenge]> ∅) in
  authorization_url <-
    call (get_authorization_url authorize_redirect_url state scopes
            extras_params)
         (GetAuthorizationUrl authorize_redirect_url state scopes
            extras_params) ;;
  if follow_redirect || initial_follow_redirect
  then ret (RedirectResponse authorization_url)
  else ret (OAuth2AuthorizeResponse authorization_url).

Definition callback (request : Request) (response : Response)
    (access_token_state : OAuth2Token * StateToken)
    (user_manager : BaseUserManager World Request) (strategy : Strategy)
    : M LoginResult :=
  let '(token, state) := access_token_state in
  id_email <- call (get_id_email (tok_access_token token))
                   (GetIdEmail (tok_access_token token)) ;;
  let '(account_id, account_email) := id_email in
  try_except
    (decode_jwt_now state state_secret [STATE_TOKEN_AUDIENCE] ;;; ret tt)
    isinstance_DecodeError
    (raise (HTTPException HTTP_400_BAD_REQUEST None)) ;;;
  let new_oauth_account :=
    {| oauth_name := client_name;
       access_token := tok_access_token token;
       expires_at := tok_expires_at token;
       refresh_token := tok_refresh_token token;
       account_id := account_id;
       account_email := account_email |} in
  user <- call (oauth_callback new_oauth_account request)
               (OAuthCallback new_oauth_account) ;;
  if negb (is_active user)
  then raise (HTTPException HTTP_400_BAD_REQUEST
                (Some LOGIN_BAD_CREDENTIALS))
  else call (login strategy user response) (Login user).

(** The redirect target the handler resolves (lines 65 to 70). *)
Definition resolved_redirect_url (request : Request)
    (redirect_url : option string) : string :=
  match redirect_url with
  | Some r1 => r1
  | None =>
      match initial_redirect_url with
      | Some r2 => r2
      | None => url_for request callback_route_name
      end
  end.

(** ** Reading a call log *)

(** The redirect targets handed to the provider client, in call order. *)
Definition redirect_targets (tr : list event) : list string :=
  omap (fun ev => match ev with
                  | GetAuthorizationUrl r _ _ _ _ => Some r
                  | _ => None
                  end) tr.

(** The provider-specific extras handed to the provider client. *)
Definition extras_passed (tr : list event)
    : list (gmap string (option string)) :=
  omap (fun ev => match ev with
                  | GetAuthorizationUrl _ _ _ x _ => Some x
                  | _ => None
                  end) tr.

Definition is_OAuthCallback (ev : event) : bool :=
  match ev with OAuthCallback _ _ => true | _ => false end.

Definition is_Login (ev : event) : bool :=
  match ev with Login _ _ => true | _ => false end.

Definition is_DecodeJwt (ev : event) : bool :=
  match ev with DecodeJwt _ _ => true | _ => false end.


(** [OAuth2AuthorizeCallback(oauth_client, redirect_url=...)] or
    [OAuth2AuthorizeCallback(oauth_client, route_name=...)]: how the
    callback dependency is told its own redirect URL. *)
Inductive OAuth2AuthorizeCallback : Type :=
  | ByRedirectUrl (redirect_url : string)
  | ByRouteName (route_name : string).

(** Lines 41 to 50 of [get_oauth_router]. *)
Definition oauth2_authorize_callback : OAuth2AuthorizeCallback :=
  match initial_redirect_url with
  | Some r => ByRedirectUrl r
  | None => ByRouteName callback_route_name
  end.

(** The payload a token carries, when it is a token at all. *)
Definition token_payload (t : StateToken) : option dict :=
  match t with
  | Signed payload _ _ => Some payload
  | Malformed _ => None
  end.

(** ** Properties of the state token codec *)

Lemma generate_state_token_run (data : ref) (secret : string)
    (lifetime_seconds : Z) (m : machine) (d : gmap string string) :
  heap m !! data = Some d ->
  generate_state_token data secret lifetime_seconds m =
    (Returned (generate_jwt (<["aud" := STATE_TOKEN_AUDIENCE]> d) secret
                 lifetime_seconds (utcnow (world m))),
     {| heap := <[data := <["aud" := STATE_TOKEN_AUDIENCE]> d]> (heap m);
        trace := trace m; world := world m |}).
Proof.
  intros Hd.
  unfold generate_state_token, bind, setitem, generate_jwt_of.
  rewrite Hd. cbn [heap world trace].
  rewrite list_lookup_insert_eq by (eapply lookup_lt_Some; eassumption).
  reflexivity.
Qed.

Lemma generate_state_token_dangling (data : ref) (secret : string)
    (lifetime_seconds : Z) (m : machine) :
  heap m !! data = None ->
  generate_state_token data secret lifetime_seconds m =
    (Raised DanglingReference, m).
Proof.
  intros Hd. unfold generate_state_token, bind, setitem. now rewrite Hd.
Qed.

(** The round trip of the two token functions on their own, as the test
    [test_generate_decode_jwt] runs it: a token issued by [generate_jwt]
    from the custom data [d] with the audience [a] already in its ["aud"]
    entry verifies against [a] at any time before its expiry; the payload
    returned carries the audience [a] and, at every other key, exactly the
    entries of [d]. *)
Lemma decode_generate_round_trip (d : gmap string string) (a : string)
    (secret : string) (lifetime_seconds now now' : Z) :
  now' < now + lifetime_seconds ->
  exists payload : gmap string string,
    decode_jwt (generate_jwt (<["aud" := a]> d) secret lifetime_seconds now)
      secret [a] now' = Returned payload /\
    payload !! "aud" = Some a /\
    (forall k : string, k <> "aud" -> payload !! k = d !! k).
Proof.
  intros Hnow. exists (<["aud" := a]> d).
  split; [| split].
  - unfold generate_jwt, decode_jwt.
    rewrite bool_decide_eq_true_2 by reflexivity.
    destruct (Z.leb_spec (now + lifetime_seconds) now') as [Hle | _]; [lia |].
    rewrite lookup_insert_eq.
    now rewrite bool_decide_eq_true_2 by (apply list_elem_of_here).
  - apply lookup_insert_eq.
  - intros k Hk. apply lookup_insert_ne. congruence.
Qed.



(** C7.  Whatever the caller's mapping holds, an ["aud"] entry of another
    value included, the token [generate_state_token] issues carries the
    audience [STATE_TOKEN_AUDIENCE] and the caller's other entries. *)
Theorem generate_state_token_sets_audience (data : ref) (secret : string)
    (lifetime_seconds : Z) (m : machine) (d : gmap string string) :
  heap m !! data = Some d ->
  exists (t : StateToken) (payload : gmap string string),
    fst (generate_state_token data secret lifetime_seconds m) = Returned t /\
    token_payload t = Some payload /\
    payload !! "aud" = Some STATE_TOKEN_AUDIENCE /\
    (forall k : string, k <> "aud" -> payload !! k = d !! k).
Proof.
  intros Hd. rewrite (generate_state_token_run _ _ _ _ _ Hd).
  eexists _, _. cbn [fst generate_jwt token_payload].
  split; [reflexivity | split; [reflexivity | split]].
  - apply lookup_insert_eq.
  - intros k Hk. apply lookup_insert_ne. congruence.
Qed.

(** C8, as amended.  [generate_state_token] writes into the caller's
    mapping: after the call it holds ["aud" = STATE_TOKEN_AUDIENCE], added
    or overwritten, and its other entries as before.  Nothing else
    changes: every other dictionary of the store, the call log and the
    world are as they were. *)
Theorem generate_state_token_writes_caller_mapping (data : ref)
    (secret : string) (lifetime_seconds : Z) (m : machine)
    (d : gmap string string) :
  heap m !! data = Some d ->
  let m' := snd (generate_state_token data secret lifetime_seconds m) in
  (exists d' : gmap string string,
     heap m' !! data = Some d' /\
     d' !! "aud" = Some STATE_TOKEN_AUDIENCE /\
     (forall k : string, k <> "aud" -> d' !! k = d !! k)) /\
  (forall r : ref, r <> data -> heap m' !! r = heap m !! r) /\
  trace m' = trace m /\
  world m' = world m.
Proof.
  intros Hd m'. subst m'. rewrite (generate_state_token_run _ _ _ _ _ Hd).
  cbn [snd heap trace world].
  assert (Hlt : (data < length (heap m))%nat)
    by (eapply lookup_lt_Some; eassumption).
  split; [| split; [| split; reflexivity]].
  - exists (<["aud" := STATE_TOKEN_AUDIENCE]> d).
    split; [now apply list_lookup_insert_eq | split].
    + apply lookup_insert_eq.
    + intros k Hk. apply lookup_insert_ne. congruence.
  - intros r Hr. apply list_lookup_insert_ne. congruence.
Qed.

(** ** Properties of the authorize handler *)

(** One run of the handler, step by step: the state dictionary is
    allocated and stamped with the audience, the token is issued at the
    current time, the provider client is called once, and its answer
    decides the outcome. *)
Lemma authorize_run (request : Request) (redirect_url : option string)
    (follow_redirect : bool) (scopes : option (list string))
    (code_challenge code_challenge_method : option string) (m : machine) :
  let target := resolved_redirect_url request redirect_url in
  let state :=
    generate_jwt (<["aud" := STATE_TOKEN_AUDIENCE]> ∅) state_secret
      TOKEN_LIFETIME (utcnow (world m)) in
  let extras : gmap string (option string) :=
    <["code_challenge_method" := code_challenge_method]>
      (<["code_challenge" := code_challenge]> ∅) in
  let answer := get_authorization_url target state scopes extras (world m) in
  authorize request redirect_url follow_redirect scopes code_challenge
    code_challenge_method m =
  (match fst answer with
   | Returned url =>
       Returned (if follow_redirect || initial_follow_redirect
                 then RedirectResponse url
                 else OAuth2AuthorizeResponse url)
   | Raised e => Raised e
   end,
   {| heap := <[length (heap m) := <["aud" := STATE_TOKEN_AUDIENCE]> ∅]>
                (heap m ++ [∅])%list;
      trace := (trace m ++
                [GetAuthorizationUrl target state scopes extras
                   (fst answer)])%list;
      world := snd answer |}).
Proof.
  intros target state extras answer.
  unfold authorize. fold (resolved_redirect_url request redirect_url).
  fold target. unfold bind at 1. unfold new_dict.
  unfold bind at 1.
  rewrite (generate_state_token_run _ _ _ _ ∅)
    by (cbn [heap]; apply list_lookup_middle; reflexivity).
  cbn [heap trace world]. fold state. fold extras.
  unfold bind, call. cbn [heap trace world]. fold answer.
  destruct answer as [[url | e] w']; cbn [fst snd]; [| reflexivity].
  destruct (follow_redirect || initial_follow_redirect); reflexivity.
Qed.

(** C5.  The redirect target handed to the provider client is the
    per-request [redirect_url] when there is one, else the configured
    [initial_redirect_url] when there is one, else the URL of the flow's
    own callback route. *)
Theorem authorize_redirect_precedence (w : World) (request : Request)
    (redirect_url : option string) (follow_redirect : bool)
    (scopes : option (list string))
    (code_challenge code_challenge_method : option string) :
  redirect_targets
    (trace (snd (authorize request redirect_url follow_redirect scopes
                   code_challenge code_challenge_method (start w)))) =
  [match redirect_url with
   | Some r1 => r1
   | None =>
       match initial_redirect_url with
       | Some r2 => r2
       | None => url_for request callback_route_name
       end
   end].
Proof.
  rewrite authorize_run. reflexivity.
Qed.

(** C6, as amended.  The extras handed to the provider client always hold
    both PKCE keys and no other: each is bound to the parameter as the
    request gave it, which is the null value when it was not supplied. *)
Theorem authorize_passes_both_pkce_keys (w : World) (request : Request)
    (redirect_url : option string) (follow_redirect : bool)
    (scopes : option (list string))
    (code_challenge code_challenge_method : option string) :
  exists extras : gmap string (option string),
    extras_passed
      (trace (snd (authorize request redirect_url follow_redirect scopes
                     code_challenge code_challenge_method (start w)))) =
      [extras] /\
    extras !! "code_challenge" = Some code_challenge /\
    extras !! "code_challenge_method" = Some code_challenge_method /\
    dom extras = {["code_challenge"; "code_challenge_method"]}.
Proof.
  rewrite authorize_run. eexists. split; [reflexivity |].
  split; [| split].
  - rewrite lookup_insert_ne by discriminate. apply lookup_insert_eq.
  - apply lookup_insert_eq.
  - rewrite !dom_insert_L, dom_empty_L. set_solver.
Qed.

(** C9.  When the provider client answers its call with the authorization
    URL [url], that call is the handler's only one, and the handler answers
    a redirect to [url] exactly when the request's [follow_redirect] or the
    configured [initial_follow_redirect] is set, and the payload holding
    the same [url] exactly when neither is. *)
Theorem authorize_response_shape (w : World) (request : Request)
    (redirect_url : option string) (follow_redirect : bool)
    (scopes : option (list string))
    (code_challenge code_challenge_method : option string) (url : string) :
  let target := resolved_redirect_url request redirect_url in
  let state :=
    generate_jwt (<["aud" := STATE_TOKEN_AUDIENCE]> ∅) state_secret
      TOKEN_LIFETIME (utcnow w) in
  let extras : gmap string (option string) :=
    <["code_challenge_method" := code_challenge_method]>
      (<["code_challenge" := code_challenge]> ∅) in
  let run := authorize request redirect_url follow_redirect scopes
               code_challenge code_challenge_method (start w) in
  fst (get_authorization_url target state scopes extras w) = Returned url ->
  trace (snd run) =
    [GetAuthorizationUrl target state scopes extras (Returned url)] /\
  (fst run = Returned (RedirectResponse url) <->
     follow_redirect = true \/ initial_follow_redirect = true) /\
  (fst run = Returned (OAuth2AuthorizeResponse url) <->
     ~ (follow_redirect = true \/ initial_follow_redirect = true)).
Proof.
  intros target state extras run Hans. subst run.
  rewrite authorize_run. cbn [fst snd trace world heap start app].
  fold target. fold state. fold extras. rewrite Hans.
  split; [reflexivity |].
  clear Hans.
  destruct follow_redirect, initial_follow_redirect; cbn [orb];
    intuition congruence.
Qed.

(** ** Properties of the callback handler *)

(** One run of the handler, step by step: identity lookup, state
    verification, account resolution, the active-account gate, login. *)
Lemma callback_run (request : Request) (response : Response)
    (token : OAuth2Token) (state : StateToken)
    (user_manager : BaseUserManager World Request) (strategy : Strategy)
    (m : machine) :
  let tok := tok_access_token token in
  let lookup := get_id_email tok (world m) in
  let m1 := {| heap := heap m;
               trace := (trace m ++ [GetIdEmail tok (fst lookup)])%list;
               world := snd lookup |} in
  callback request response (token, state) user_manager strategy m =
  match fst lookup with
  | Raised e => (Raised e, m1)
  | Returned (account_id, account_email) =>
      let verdict :=
        decode_jwt state state_secret [STATE_TOKEN_AUDIENCE]
          (utcnow (snd lookup)) in
      let m2 := {| heap := heap m;
                   trace := (trace m1 ++ [DecodeJwt state verdict])%list;
                   world := snd lookup |} in
      match verdict with
      | Raised e =>
          (Raised (if isinstance_DecodeError e
                   then HTTPException HTTP_400_BAD_REQUEST None
                   else e), m2)
      | Returned _ =>
          let account :=
            {| oauth_name := client_name;
               access_token := tok;
               expires_at := tok_expires_at token;
               refresh_token := tok_refresh_token token;
               account_id := account_id;
               account_email := account_email |} in
          let resolved := oauth_callback account request (snd lookup) in
          let m3 := {| heap := heap m;
                       trace := (trace m2 ++
                                 [OAuthCallback account (fst resolved)])%list;
                       world := snd resolved |} in
          match fst resolved with
          | Raised e => (Raised e, m3)
          | Returned user =>
              if negb (is_active user)
              then (Raised (HTTPException HTTP_400_BAD_REQUEST
                              (Some LOGIN_BAD_CREDENTIALS)), m3)
              else
                let session := login strategy user response (snd resolved) in
                (fst session,
                 {| heap := heap m;
                    trace := (trace m3 ++ [Login user (fst session)])%list;
                    world := snd session |})
          end
      end
  end.
Proof.
  cbv zeta. unfold callback, bind, call, try_except, decode_jwt_now, ret, raise.
  cbn [heap trace world].
  destruct (get_id_email (tok_access_token token) (world m))
    as [[[account_id account_email] | e] w1]; cbn [fst snd]; [| reflexivity].
  cbn [heap trace world].
  destruct (decode_jwt state state_secret [STATE_TOKEN_AUDIENCE] (utcnow w1))
    as [payload | e]; cbn [heap trace world].
  - destruct (oauth_callback _ request w1) as [[user | e] w2];
      cbn [fst snd]; [| reflexivity].
    destruct (negb (is_active user)); [reflexivity |].
    cbn [heap trace world].
    destruct (login strategy user response w2) as [session w3]; reflexivity.
  - destruct (isinstance_DecodeError e); reflexivity.
Qed.

(** What the handler answers when verification raises: the generic 400
    for an exception that is a [jwt.DecodeError], the exception itself
    otherwise. *)
Lemma callback_on_failed_verification (w w1 : World) (request : Request)
    (response : Response) (token : OAuth2Token) (state : StateToken)
    (user_manager : BaseUserManager World Request) (strategy : Strategy)
    (id_email : string * string) (e : exn) :
  get_id_email (tok_access_token token) w = (Returned id_email, w1) ->
  decode_jwt state state_secret [STATE_TOKEN_AUDIENCE] (utcnow w1) =
    Raised e ->
  fst (callback request response (token, state) user_manager strategy
         (start w)) =
  Raised (if isinstance_DecodeError e
          then HTTPException HTTP_400_BAD_REQUEST None
          else e).
Proof.
  intros Hlookup Hverdict. rewrite callback_run.
  cbn [start world heap trace]. rewrite Hlookup. cbn [fst snd].
  destruct id_email as [account_id account_email].
  rewrite Hverdict. reflexivity.
Qed.

(** Membership in a call log that has been computed down to a literal
    list: one case per entry, closed when the entry is of another kind. *)
Ltac log_membership H :=
  cbn in H; rewrite ?elem_of_cons, ?elem_of_nil in H;
  repeat match type of H with
         | _ \/ _ => destruct H as [H | H]
         end;
  first [ contradiction | discriminate | congruence | idtac ].

(** C2.  When the state token fails verification at the time the handler
    verifies it, for whatever reason, the request ends in an error and
    the account resolver is never called, nor is the login operation. *)
Theorem callback_state_before_mutation (w : World) (request : Request)
    (response : Response) (token : OAuth2Token) (state : StateToken)
    (user_manager : BaseUserManager World Request) (strategy : Strategy)
    (e : exn) :
  decode_jwt state state_secret [STATE_TOKEN_AUDIENCE]
    (utcnow (snd (get_id_email (tok_access_token token) w))) = Raised e ->
  let run := callback request response (token, state) user_manager strategy
               (start w) in
  is_raised (fst run) = true /\
  (forall account res, OAuthCallback account res ∉ trace (snd run)) /\
  (forall user res, Login user res ∉ trace (snd run)).
Proof.
  intros Hverdict run. subst run. rewrite callback_run.
  cbn [start world heap trace].
  destruct (get_id_email (tok_access_token token) w)
    as [[[account_id account_email] | e0] w1]; cbn [fst snd] in Hverdict |- *.
  - rewrite Hverdict. cbn [fst snd trace is_raised].
    split; [reflexivity |].
    split; intros ? ? Hin; log_membership Hin.
  - cbn [fst snd trace is_raised].
    split; [reflexivity |].
    split; intros ? ? Hin; log_membership Hin.
Qed.

(** C3.  When the account resolver has returned a user whose [is_active]
    is false, the request ends in the HTTP 400 error whose detail is
    [LOGIN_BAD_CREDENTIALS], and the backend's login is never called. *)
Theorem callback_inactive_gate (w : World) (request : Request)
    (response : Response) (token : OAuth2Token) (state : StateToken)
    (user_manager : BaseUserManager World Request) (strategy : Strategy)
    (account : BaseOAuthAccount) (user : User) :
  let run := callback request response (token, state) user_manager strategy
               (start w) in
  OAuthCallback account (Returned user) ∈ trace (snd run) ->
  is_active user = false ->
  fst run = Raised (HTTPException HTTP_400_BAD_REQUEST
                      (Some LOGIN_BAD_CREDENTIALS)) /\
  (forall u res, Login u res ∉ trace (snd run)).
Proof.
  intros run. subst run. rewrite callback_run.
  cbn [start world heap trace].
  destruct (get_id_email (tok_access_token token) w)
    as [[[account_id account_email] | e0] w1]; cbn [fst snd];
    [| intros Hin; log_membership Hin].
  destruct (decode_jwt state state_secret [STATE_TOKEN_AUDIENCE] (utcnow w1))
    as [payload | e1]; [| intros Hin; log_membership Hin].
  destruct (oauth_callback _ request w1) as [[resolved | e2] w2];
    cbn [fst snd]; [| intros Hin; log_membership Hin].
  destruct (is_active resolved) eqn:Hactive; cbn [negb fst snd trace].
  - intros Hin Hinactive. exfalso.
    assert (user = resolved) as -> by (log_membership Hin).
    congruence.
  - intros _ _. split; [reflexivity |].
    intros u res Hin. log_membership Hin.
Qed.

(** C10.  The identity lookup at the provider is the first call of every
    run, whatever the state token: either it raises and the run ends
    there, or the state verification comes right after it. *)
Theorem callback_identity_lookup_first (w : World) (request : Request)
    (response : Response) (token : OAuth2Token) (state : StateToken)
    (user_manager : BaseUserManager World Request) (strategy : Strategy) :
  let run := callback request response (token, state) user_manager strategy
               (start w) in
  let lookup := get_id_email (tok_access_token token) w in
  exists rest : list event,
    trace (snd run) =
      GetIdEmail (tok_access_token token) (fst lookup) :: rest /\
    ((is_raised (fst lookup) = true /\ rest = []) \/
     (is_raised (fst lookup) = false /\
      exists rest' : list event,
        rest =
          DecodeJwt state
            (decode_jwt state state_secret [STATE_TOKEN_AUDIENCE]
               (utcnow (snd lookup))) :: rest' /\
        Forall (fun ev => is_DecodeJwt ev = false) rest')).
Proof.
  intros run lookup. subst run lookup. rewrite callback_run.
  cbn [start world heap trace].
  destruct (get_id_email (tok_access_token token) w)
    as [[[account_id account_email] | e0] w1]; cbn [fst snd is_raised].
  2: { eexists. split; [reflexivity |]. left. split; reflexivity. }
  destruct (decode_jwt state state_secret [STATE_TOKEN_AUDIENCE] (utcnow w1))
    as [payload | e1].
  2: { eexists. split; [reflexivity |]. right. split; [reflexivity |].
       eexists. split; [reflexivity | constructor]. }
  destruct (oauth_callback _ request w1) as [[resolved | e2] w2];
    cbn [fst snd].
  2: { eexists. split; [reflexivity |]. right. split; [reflexivity |].
       eexists. split; [reflexivity | repeat constructor]. }
  destruct (negb (is_active resolved)); cbn [fst snd trace].
  - eexists. split; [reflexivity |]. right. split; [reflexivity |].
    eexists. split; [reflexivity | repeat constructor].
  - eexists. split; [reflexivity |]. right. split; [reflexivity |].
    eexists. split; [reflexivity | repeat constructor].
Qed.

(** In particular a request whose state token is rejected has made the
    identity lookup, and nothing but the lookup and the verification. *)
Lemma callback_invalid_state_log (w w1 : World) (request : Request)
    (response : Response) (token : OAuth2Token) (state : StateToken)
    (user_manager : BaseUserManager World Request) (strategy : Strategy)
    (id_email : string * string) (e : exn) :
  get_id_email (tok_access_token token) w = (Returned id_email, w1) ->
  decode_jwt state state_secret [STATE_TOKEN_AUDIENCE] (utcnow w1) =
    Raised e ->
  trace (snd (callback request response (token, state) user_manager strategy
                (start w))) =
  [GetIdEmail (tok_access_token token) (Returned id_email);
   DecodeJwt state (Raised e)].
Proof.
  intros Hlookup Hverdict. rewrite callback_run.
  cbn [start world heap trace]. rewrite Hlookup. cbn [fst snd].
  destruct id_email as [account_id account_email].
  rewrite Hverdict. reflexivity.
Qed.

(** ** Further properties of the callback handler *)

(** X1.  The successful run.  When the identity lookup returns, the state
    verifies, and the resolver returns an active user, the handler's
    answer is the backend's login answer for that very user, and the four
    steps were made once each, in this order. *)
Theorem callback_success (w w1 w2 : World) (request : Request)
    (response : Response) (token : OAuth2Token) (state : StateToken)
    (user_manager : BaseUserManager World Request) (strategy : Strategy)
    (id email : string) (payload : gmap string string) (user : User) :
  let account := {| oauth_name := client_name;
                    access_token := tok_access_token token;
                    expires_at := tok_expires_at token;
                    refresh_token := tok_refresh_token token;
                    account_id := id;
                    account_email := email |} in
  get_id_email (tok_access_token token) w = (Returned (id, email), w1) ->
  decode_jwt state state_secret [STATE_TOKEN_AUDIENCE] (utcnow w1) =
    Returned payload ->
  oauth_callback account request w1 = (Returned user, w2) ->
  is_active user = true ->
  let session := login strategy user response w2 in
  callback request response (token, state) user_manager strategy (start w) =
  (fst session,
   {| heap := [];
      trace := [GetIdEmail (tok_access_token token) (Returned (id, email));
                DecodeJwt state (Returned payload);
                OAuthCallback account (Returned user);
                Login user (fst session)];
      world := snd session |}).
Proof.
  intros account Hlookup Hverdict Hresolved Hactive session.
  subst account session. rewrite callback_run.
  cbn [start world heap trace]. rewrite Hlookup. cbn [fst snd].
  rewrite Hverdict. rewrite Hresolved. cbn [fst snd].
  rewrite Hactive. reflexivity.
Qed.

(** X2.  A failed identity lookup ends the run at once: the provider's
    exception is the handler's, whatever the state token is, and nothing
    else was called. *)
Theorem callback_lookup_failure (w w1 : World) (request : Request)
    (response : Response) (token : OAuth2Token) (state : StateToken)
    (user_manager : BaseUserManager World Request) (strategy : Strategy)
    (e : exn) :
  get_id_email (tok_access_token token) w = (Raised e, w1) ->
  callback request response (token, state) user_manager strategy (start w) =
  (Raised e,
   {| heap := [];
      trace := [GetIdEmail (tok_access_token token) (Raised e)];
      world := w1 |}).
Proof.
  intros Hlookup. rewrite callback_run.
  cbn [start world heap trace]. rewrite Hlookup. reflexivity.
Qed.

(** X3.  An exception of the account resolver is the handler's, and the
    backend's login is not called. *)
Theorem callback_resolver_failure (w w1 w2 : World) (request : Request)
    (response : Response) (token : OAuth2Token) (state : StateToken)
    (user_manager : BaseUserManager World Request) (strategy : Strategy)
    (id email : string) (payload : gmap string string) (e : exn) :
  let account := {| oauth_name := client_name;
                    access_token := tok_access_token token;
                    expires_at := tok_expires_at token;
                    refresh_token := tok_refresh_token token;
                    account_id := id;
                    account_email := email |} in
  let run := callback request response (token, state) user_manager strategy
               (start w) in
  get_id_email (tok_access_token token) w = (Returned (id, email), w1) ->
  decode_jwt state state_secret [STATE_TOKEN_AUDIENCE] (utcnow w1) =
    Returned payload ->
  oauth_callback account request w1 = (Raised e, w2) ->
  fst run = Raised e /\
  world (snd run) = w2 /\
  (forall u res, Login u res ∉ trace (snd run)).
Proof.
  intros account run Hlookup Hverdict Hresolved. subst account run.
  rewrite callback_run. cbn [start world heap trace].
  rewrite Hlookup. cbn [fst snd]. rewrite Hverdict, Hresolved.
  cbn [fst snd world trace].
  split; [reflexivity | split; [reflexivity |]].
  intros u res Hin. log_membership Hin.
Qed.

(** X4.  What the handler does with an exception of the state verification
    is decided by the exception's class alone: one that is a
    [jwt.DecodeError], the class itself or a subclass of it, is answered
    with the HTTP 400 without detail, any other leaves the handler as it
    was raised; either way the run ends with the verification. *)
Theorem callback_translates_decode_error (w w1 : World) (request : Request)
    (response : Response) (token : OAuth2Token) (state : StateToken)
    (user_manager : BaseUserManager World Request) (strategy : Strategy)
    (id_email : string * string) (e : exn) :
  let run := callback request response (token, state) user_manager strategy
               (start w) in
  get_id_email (tok_access_token token) w = (Returned id_email, w1) ->
  decode_jwt state state_secret [STATE_TOKEN_AUDIENCE] (utcnow w1) =
    Raised e ->
  fst run =
    Raised (if isinstance_DecodeError e
            then HTTPException HTTP_400_BAD_REQUEST None
            else e) /\
  trace (snd run) =
    [GetIdEmail (tok_access_token token) (Returned id_email);
     DecodeJwt state (Raised e)].
Proof.
  intros run Hlookup Hverdict. subst run. split.
  - exact (callback_on_failed_verification w w1 request response token
             state user_manager strategy id_email e Hlookup Hverdict).
  - exact (callback_invalid_state_log w w1 request response token state
             user_manager strategy id_email e Hlookup Hverdict).
Qed.

(** X5.  Login is reached only through the checks: if the backend's login was
    called for a user, then the state had verified, and that user is the
    one the resolver returned for the account of the provider identity,
    and is active. *)
Theorem callback_login_only_after_checks (w : World) (request : Request)
    (response : Response) (token : OAuth2Token) (state : StateToken)
    (user_manager : BaseUserManager World Request) (strategy : Strategy)
    (user : User) (res : outcome LoginResult) :
  let run := callback request response (token, state) user_manager strategy
               (start w) in
  Login user res ∈ trace (snd run) ->
  is_active user = true /\
  fst run = res /\
  exists (id email : string) (payload : gmap string string),
    GetIdEmail (tok_access_token token) (Returned (id, email))
      ∈ trace (snd run) /\
    DecodeJwt state (Returned payload) ∈ trace (snd run) /\
    OAuthCallback
      {| oauth_name := client_name;
         access_token := tok_access_token token;
         expires_at := tok_expires_at token;
         refresh_token := tok_refresh_token token;
         account_id := id;
         account_email := email |}
      (Returned user) ∈ trace (snd run).
Proof.
  intros run. subst run. rewrite callback_run.
  cbn [start world heap trace].
  destruct (get_id_email (tok_access_token token) w)
    as [[[id email] | e0] w1]; cbn [fst snd];
    [| intros Hin; log_membership Hin].
  destruct (decode_jwt state state_secret [STATE_TOKEN_AUDIENCE] (utcnow w1))
    as [payload | e1]; [| intros Hin; log_membership Hin].
  destruct (oauth_callback _ request w1) as [[resolved | e2] w2];
    cbn [fst snd]; [| intros Hin; log_membership Hin].
  destruct (is_active resolved) eqn:Hactive; cbn [negb fst snd trace];
    [| intros Hin; log_membership Hin].
  intros Hin.
  assert (user = resolved /\
          res = fst (login strategy resolved response w2)) as [-> ->].
  { cbn in Hin. rewrite ?elem_of_cons, ?elem_of_nil in Hin.
    destruct Hin as [Hin | [Hin | [Hin | [Hin | []]]]];
      try discriminate Hin.
    injection Hin as -> ->. split; reflexivity. }
  split; [exact Hactive | split; [reflexivity |]].
  exists id, email, payload. cbn.
  split; [apply list_elem_of_here |].
  split; [apply list_elem_of_further, list_elem_of_here |].
  do 2 apply list_elem_of_further. apply list_elem_of_here.
Qed.

(** ** Further properties of the authorize handler and of the codec *)

(** X6.  The handler calls the provider client exactly once, with the scopes
    as the request gave them and a state token it has just issued: signed
    with the router's secret, expiring [TOKEN_LIFETIME] after the request,
    and carrying the audience and no custom data. *)
Theorem authorize_issues_fresh_state (w : World) (request : Request)
    (redirect_url : option string) (follow_redirect : bool)
    (scopes : option (list string))
    (code_challenge code_challenge_method : option string) :
  exists (target : string) (extras : gmap string (option string))
         (res : outcome string),
    trace (snd (authorize request redirect_url follow_redirect scopes
                  code_challenge code_challenge_method (start w))) =
    [GetAuthorizationUrl target
       (Signed {["aud" := STATE_TOKEN_AUDIENCE]}
          (utcnow w + TOKEN_LIFETIME) state_secret)
       scopes extras res].
Proof.
  rewrite authorize_run. cbn [snd trace start world app].
  unfold generate_jwt. rewrite insert_empty.
  eexists _, _, _. reflexivity.
Qed.

(** X7.  An exception of the provider client passes through the handler
    unchanged: when the client's answer to the handler's call is the
    exception [e], the handler raises [e], with that call as its only
    one. *)
Theorem authorize_provider_failure_passes_through (w : World)
    (request : Request) (redirect_url : option string)
    (follow_redirect : bool) (scopes : option (list string))
    (code_challenge code_challenge_method : option string) (e : exn) :
  let target := resolved_redirect_url request redirect_url in
  let state :=
    generate_jwt (<["aud" := STATE_TOKEN_AUDIENCE]> ∅) state_secret
      TOKEN_LIFETIME (utcnow w) in
  let extras : gmap string (option string) :=
    <["code_challenge_method" := code_challenge_method]>
      (<["code_challenge" := code_challenge]> ∅) in
  let run := authorize request redirect_url follow_redirect scopes
               code_challenge code_challenge_method (start w) in
  fst (get_authorization_url target state scopes extras w) = Raised e ->
  fst run = Raised e /\
  trace (snd run) =
    [GetAuthorizationUrl target state scopes extras (Raised e)].
Proof.
  intros target state extras run Hans. subst run.
  rewrite authorize_run. cbn [fst snd trace world heap start app].
  fold target. fold state. fold extras. rewrite Hans.
  split; reflexivity.
Qed.

(** X8.  The handler leaves every dictionary that was in the store before
    the request as it was: it writes into none but the state data it
    creates itself. *)
Theorem authorize_store_frame (request : Request)
    (redirect_url : option string) (follow_redirect : bool)
    (scopes : option (list string))
    (code_challenge code_challenge_method : option string) (m : machine)
    (r : ref) (d : gmap string string) :
  heap m !! r = Some d ->
  heap (snd (authorize request redirect_url follow_redirect scopes
               code_challenge code_challenge_method m)) !! r = Some d.
Proof.
  intros Hr. rewrite authorize_run. cbn [snd heap].
  rewrite list_lookup_insert_ne
    by (apply lookup_lt_Some in Hr; lia).
  now apply lookup_app_l_Some.
Qed.

(** X9.  When the request names no redirect URL, the target handed to the
    provider is the one the callback dependency was built with: the
    configured URL, or the URL of the callback route. *)
Theorem authorize_default_matches_callback_adapter (w : World)
    (request : Request) (follow_redirect : bool)
    (scopes : option (list string))
    (code_challenge code_challenge_method : option string) :
  redirect_targets
    (trace (snd (authorize request None follow_redirect scopes
                   code_challenge code_challenge_method (start w)))) =
  [match oauth2_authorize_callback with
   | ByRedirectUrl r => r
   | ByRouteName n => url_for request n
   end].
Proof.
  rewrite authorize_run. unfold oauth2_authorize_callback.
  cbn [snd trace start app redirect_targets omap resolved_redirect_url].
  destruct initial_redirect_url; reflexivity.
Qed.


(** X12.  Issuing a second token from the same mapping changes nothing more:
    the store after the second call is the store after the first, and the
    token is the one a first call would give at that time. *)
Theorem generate_state_token_twice (data : ref) (secret : string)
    (lifetime_seconds : Z) (m : machine) (d : gmap string string) :
  heap m !! data = Some d ->
  let m1 := snd (generate_state_token data secret lifetime_seconds m) in
  snd (generate_state_token data secret lifetime_seconds m1) = m1 /\
  fst (generate_state_token data secret lifetime_seconds m1) =
  fst (generate_state_token data secret lifetime_seconds m).
Proof.
  intros Hd m1. subst m1.
  rewrite (generate_state_token_run _ _ _ _ _ Hd). cbn [snd fst].
  assert (Hlt : (data < length (heap m))%nat)
    by (eapply lookup_lt_Some; eassumption).
  erewrite generate_state_token_run
    by (cbn [heap]; now apply list_lookup_insert_eq).
  cbn [fst snd heap trace world].
  rewrite insert_insert_eq. rewrite list_insert_insert_eq.
  split; reflexivity.
Qed.

End Router.

(** ** Runs on the sample deployment

    The router of [Demo.github] and [Demo.cookie], with no initial redirect
    URL and no initial follow-redirect, on requests to
    [https://app.example]. *)

Local Abbreviation demo_authorize :=
  (authorize id Demo.audience Demo.lifetime Demo.github Demo.cookie
     Demo.secret None false Demo.url_for "https://app.example").

Local Abbreviation demo_callback :=
  (callback id Demo.audience Demo.bad_credentials Demo.github Demo.cookie
     Demo.secret "https://app.example" tt).

Local Abbreviation demo_generate_state_token :=
  (generate_state_token (LoginResult := string) id Demo.audience).

(** The token the authorize handler issues at time 0: it expires at 3600. *)
Local Abbreviation issued_at_0 :=
  (generate_jwt {["aud" := Demo.audience]} Demo.secret Demo.lifetime 0).

(** A caller's mapping that already names an audience. *)
Local Abbreviation foreign_data :=
  (<["aud" := "someone-else"]> {["next" := "/home"]} : gmap string string).

Local Abbreviation foreign_store :=
  ({| heap := [foreign_data]; trace := []; world := 0 |}
   : machine (World := Z) (LoginResult := string)).

(** The data of [test_generate_decode_jwt] in the caller's store. *)
Local Abbreviation test_store :=
  ({| heap := [<["aud" := "TEST_AUDIENCE"]> {["foo" := "bar"]}];
      trace := []; world := 0 |}
   : machine (World := Z) (LoginResult := string)).

(** C1, at a failing input.  The provider answers after the state token
    has expired: verification raises [ExpiredSignatureError], which is no
    [jwt.DecodeError], so the handler does not answer the generic HTTP
    400 but lets the exception through. *)
Theorem callback_expired_state_escapes :
  fst (demo_callback (Demo.provider_token, issued_at_0) (Demo.resolver true)
         tt (start 7200)) =
  Raised (JWTException PyJWT.ExpiredSignatureError).
Proof. vm_compute. reflexivity. Qed.

(** The same for a well-signed token of another audience. *)
Lemma callback_foreign_audience_escapes :
  fst (demo_callback
         (Demo.provider_token,
          generate_jwt {["aud" := "fastapi-users:reset"]} Demo.secret
            Demo.lifetime 0)
         (Demo.resolver true) tt (start 100)) =
  Raised (JWTException PyJWT.InvalidAudienceError).
Proof. vm_compute. reflexivity. Qed.

(** A token that does not parse, or whose signature is wrong, does get the
    generic HTTP 400. *)
Lemma callback_malformed_state_400 :
  fst (demo_callback (Demo.provider_token, Malformed "not.a.jwt")
         (Demo.resolver true) tt (start 100)) =
  Raised (HTTPException 400 None) /\
  fst (demo_callback
         (Demo.provider_token,
          Signed {["aud" := Demo.audience]} 3600 "attacker-key")
         (Demo.resolver true) tt (start 100)) =
  Raised (HTTPException 400 None).
Proof. split; vm_compute; reflexivity. Qed.

(** And a token within its lifetime logs the user in. *)
Lemma callback_valid_state_logs_in :
  fst (demo_callback (Demo.provider_token, issued_at_0) (Demo.resolver true)
         tt (start 100)) =
  Returned "session:42".
Proof. vm_compute. reflexivity. Qed.

(** C2, on a forged token: signed with a key that is not the service's. *)
Lemma callback_state_before_mutation_witness :
  let forged := Signed {["aud" := Demo.audience]} 3600 "attacker-key" in
  let run := demo_callback (Demo.provider_token, forged) (Demo.resolver true)
               tt (start 100) in
  decode_jwt forged Demo.secret [Demo.audience] 100 =
    Raised (JWTException PyJWT.InvalidSignatureError) /\
  (is_raised (fst run) = true /\
   (forall account res, OAuthCallback account res ∉ trace (snd run)) /\
   (forall user res, Login user res ∉ trace (snd run))).
Proof.
  split; [vm_compute; reflexivity |].
  apply (callback_state_before_mutation id Demo.audience Demo.bad_credentials
           Demo.github Demo.cookie Demo.secret 100 "https://app.example" tt
           Demo.provider_token
           (Signed {["aud" := Demo.audience]} 3600 "attacker-key")
           (Demo.resolver true) tt
           (JWTException PyJWT.InvalidSignatureError)).
  vm_compute. reflexivity.
Defined.

(** C3, on a resolver that answers a disabled account. *)
Lemma callback_inactive_gate_witness :
  let run := demo_callback (Demo.provider_token, issued_at_0)
               (Demo.resolver false) tt (start 100) in
  let account := {| oauth_name := "github"; access_token := "gho_token";
                    expires_at := Some 7200; refresh_token := None;
                    account_id := "42";
                    account_email := "ada@example.org" |} in
  let user := {| user_id := "42"; user_email := "ada@example.org";
                 is_active := false |} in
  OAuthCallback account (Returned user) ∈ trace (snd run) /\
  is_active user = false /\
  fst run = Raised (HTTPException HTTP_400_BAD_REQUEST
                      (Some Demo.bad_credentials)) /\
  (forall u res, Login u res ∉ trace (snd run)).
Proof.
  cbv zeta.
  assert (Hcalled :
    OAuthCallback
      {| oauth_name := "github"; access_token := "gho_token";
         expires_at := Some 7200; refresh_token := None;
         account_id := "42"; account_email := "ada@example.org" |}
      (Returned {| user_id := "42"; user_email := "ada@example.org";
                   is_active := false |})
    ∈ trace (snd (demo_callback (Demo.provider_token, issued_at_0)
                    (Demo.resolver false) tt (start 100)))).
  { vm_compute. do 2 apply list_elem_of_further. apply list_elem_of_here. }
  split; [exact Hcalled | split; [reflexivity |]].
  exact (callback_inactive_gate id Demo.audience Demo.bad_credentials
           Demo.github Demo.cookie Demo.secret 100 "https://app.example" tt
           Demo.provider_token issued_at_0 (Demo.resolver false) tt _ _
           Hcalled eq_refl).
Defined.

(** The test [test_generate_decode_jwt] itself, verified 100 seconds after
    issue. *)
Lemma decode_generate_round_trip_witness :
  100 < 0 + 3600 /\
  exists payload : gmap string string,
    decode_jwt
      (generate_jwt (<["aud" := "TEST_AUDIENCE"]> {["foo" := "bar"]})
         Demo.secret 3600 0)
      Demo.secret ["TEST_AUDIENCE"] 100 = Returned payload /\
    payload !! "aud" = Some "TEST_AUDIENCE" /\
    (forall k : string,
       k <> "aud" ->
       payload !! k = ({["foo" := "bar"]} : gmap string string) !! k).
Proof.
  split; [lia |].
  apply (decode_generate_round_trip {["foo" := "bar"]} "TEST_AUDIENCE"
           Demo.secret 3600 0 100).
  lia.
Defined.



(** C7, on a mapping that came with another audience. *)
Lemma generate_state_token_sets_audience_witness :
  heap foreign_store !! 0%nat = Some foreign_data /\
  exists (t : StateToken) (payload : gmap string string),
    fst (demo_generate_state_token 0%nat Demo.secret Demo.lifetime
           foreign_store) = Returned t /\
    token_payload t = Some payload /\
    payload !! "aud" = Some Demo.audience /\
    (forall k : string, k <> "aud" -> payload !! k = foreign_data !! k).
Proof.
  split; [reflexivity |].
  apply (generate_state_token_sets_audience id Demo.audience 0%nat
           Demo.secret Demo.lifetime foreign_store foreign_data).
  reflexivity.
Defined.

(** C8 as stated fails: the caller's empty mapping has an entry after the
    call. *)
Lemma generate_state_token_mutates_argument :
  ~ (forall (data : ref) (secret : string) (lifetime_seconds : Z)
            (m : machine (World := Z) (LoginResult := string))
            (d : gmap string string),
       heap m !! data = Some d ->
       heap (snd (demo_generate_state_token data secret lifetime_seconds m))
         !! data = Some d).
Proof.
  intros Hframe.
  specialize (Hframe 0%nat Demo.secret Demo.lifetime
                {| heap := [∅]; trace := []; world := 0 |} ∅ eq_refl).
  vm_compute in Hframe. discriminate Hframe.
Qed.

(** C8 as amended, on the mapping that came with another audience. *)
Lemma generate_state_token_writes_caller_mapping_witness :
  let m' := snd (demo_generate_state_token 0%nat Demo.secret Demo.lifetime
                   foreign_store) in
  heap foreign_store !! 0%nat = Some foreign_data /\
  ((exists d' : gmap string string,
      heap m' !! 0%nat = Some d' /\
      d' !! "aud" = Some Demo.audience /\
      (forall k : string, k <> "aud" -> d' !! k = foreign_data !! k)) /\
   (forall r : ref, r <> 0%nat -> heap m' !! r = heap foreign_store !! r) /\
   trace m' = trace foreign_store /\
   world m' = world foreign_store).
Proof.
  split; [reflexivity |].
  apply (generate_state_token_writes_caller_mapping id Demo.audience 0%nat
           Demo.secret Demo.lifetime foreign_store foreign_data).
  reflexivity.
Defined.

(** C6 as stated fails: a request that supplies no PKCE parameter has both
    keys passed on, bound to the null value. *)
Lemma authorize_passes_null_pkce :
  exists extras : gmap string (option string),
    extras_passed
      (trace (snd (demo_authorize None false None None None (start 0)))) =
      [extras] /\
    extras !! "code_challenge" = Some None /\
    extras !! "code_challenge_method" = Some None.
Proof.
  eexists. split; [vm_compute; reflexivity |].
  split; vm_compute; reflexivity.
Qed.

(** C9, on a request that asks to follow the redirect and on one that
    does not: the first is answered with the redirect, the second with the
    payload, both with the URL the provider gave. *)
Lemma authorize_response_shape_witness :
  let target :=
    Demo.url_for "https://app.example" "oauth:github.cookie.callback" in
  let extras : gmap string (option string) :=
    <["code_challenge_method" := None]> (<["code_challenge" := None]> ∅) in
  let url := "https://github.example/authorize?redirect_uri=" ++ target in
  fst (get_authorization_url (BaseOAuth2 := Demo.github) target issued_at_0
         None extras 0) = Returned url /\
  (let run := demo_authorize None true None None None (start 0) in
   trace (snd run) =
     [GetAuthorizationUrl target issued_at_0 None extras (Returned url)] /\
   (fst run = Returned (RedirectResponse url) <->
      true = true \/ false = true) /\
   (fst run = Returned (OAuth2AuthorizeResponse url) <->
      ~ (true = true \/ false = true))) /\
  (let run := demo_authorize None false None None None (start 0) in
   trace (snd run) =
     [GetAuthorizationUrl target issued_at_0 None extras (Returned url)] /\
   (fst run = Returned (RedirectResponse url) <->
      false = true \/ false = true) /\
   (fst run = Returned (OAuth2AuthorizeResponse url) <->
      ~ (false = true \/ false = true))).
Proof.
  cbv zeta. split; [vm_compute; reflexivity | split].
  - apply (authorize_response_shape id Demo.audience Demo.lifetime
             Demo.github Demo.cookie Demo.secret None false Demo.url_for 0
             "https://app.example" None true None None None
             ("https://github.example/authorize?redirect_uri=" ++
              Demo.url_for "https://app.example"
                "oauth:github.cookie.callback")).
    vm_compute. reflexivity.
  - apply (authorize_response_shape id Demo.audience Demo.lifetime
             Demo.github Demo.cookie Demo.secret None false Demo.url_for 0
             "https://app.example" None false None None None
             ("https://github.example/authorize?redirect_uri=" ++
              Demo.url_for "https://app.example"
                "oauth:github.cookie.callback")).
    vm_compute. reflexivity.
Defined.

(** ** Further runs on the sample deployment *)

Local Abbreviation demo_account :=
  {| oauth_name := "github"; access_token := "gho_token";
     expires_at := Some 7200; refresh_token := None;
     account_id := "42"; account_email := "ada@example.org" |}.

Local Abbreviation ada :=
  {| user_id := "42"; user_email := "ada@example.org"; is_active := true |}.

(** The successful run, 100 seconds after the token was issued. *)
Lemma callback_success_witness :
  get_id_email (BaseOAuth2 := Demo.github) "gho_token" 100 =
    (Returned ("42", "ada@example.org"), 100) /\
  decode_jwt issued_at_0 Demo.secret [Demo.audience] 100 =
    Returned {["aud" := Demo.audience]} /\
  is_active ada = true /\
  demo_callback (Demo.provider_token, issued_at_0) (Demo.resolver true) tt
    (start 100) =
  (Returned "session:42",
   {| heap := [];
      trace := [GetIdEmail "gho_token" (Returned ("42", "ada@example.org"));
                DecodeJwt issued_at_0
                  (Returned {["aud" := Demo.audience]});
                OAuthCallback demo_account (Returned ada);
                Login ada (Returned "session:42")];
      world := 100 |}).
Proof.
  split; [reflexivity | split; [vm_compute; reflexivity |]].
  split; [reflexivity |].
  apply (callback_success id Demo.audience Demo.bad_credentials Demo.github
           Demo.cookie Demo.secret 100 100 100 "https://app.example" tt
           Demo.provider_token issued_at_0 (Demo.resolver true) tt
           "42" "ada@example.org" {["aud" := Demo.audience]} ada);
    vm_compute; reflexivity.
Defined.

(** The provider cannot be reached: the run ends with its exception. *)
Lemma callback_lookup_failure_witness :
  callback id Demo.audience Demo.bad_credentials Demo.offline Demo.cookie
    Demo.secret "https://app.example" tt
    (Demo.provider_token, issued_at_0) (Demo.resolver true) tt (start 100) =
  (Raised (CollaboratorError "provider unreachable"),
   {| heap := [];
      trace := [GetIdEmail "gho_token"
                  (Raised (CollaboratorError "provider unreachable"))];
      world := 130 |}).
Proof.
  apply (callback_lookup_failure id Demo.audience Demo.bad_credentials
           Demo.offline Demo.cookie Demo.secret 100 130
           "https://app.example" tt Demo.provider_token issued_at_0
           (Demo.resolver true) tt
           (CollaboratorError "provider unreachable")).
  reflexivity.
Defined.

(** The resolver refuses the account: no login. *)
Lemma callback_resolver_failure_witness :
  let run := demo_callback (Demo.provider_token, issued_at_0)
               Demo.refusing_resolver tt (start 100) in
  oauth_callback (BaseUserManager := Demo.refusing_resolver) demo_account
    "https://app.example" 100 =
    (Raised (CollaboratorError "UserAlreadyExists"), 101) /\
  (fst run = Raised (CollaboratorError "UserAlreadyExists") /\
   world (snd run) = 101 /\
   (forall u res, Login u res ∉ trace (snd run))).
Proof.
  split; [reflexivity |].
  apply (callback_resolver_failure id Demo.audience Demo.bad_credentials
           Demo.github Demo.cookie Demo.secret 100 100 101
           "https://app.example" tt Demo.provider_token issued_at_0
           Demo.refusing_resolver tt "42" "ada@example.org"
           {["aud" := Demo.audience]}
           (CollaboratorError "UserAlreadyExists"));
    vm_compute; reflexivity.
Defined.

(** A state that is no token at all: its [DecodeError] becomes the 400. *)
Lemma callback_translates_decode_error_witness :
  let run := demo_callback (Demo.provider_token, Malformed "not.a.jwt")
               (Demo.resolver true) tt (start 100) in
  decode_jwt (Malformed "not.a.jwt") Demo.secret [Demo.audience] 100 =
    Raised (JWTException PyJWT.DecodeError) /\
  (fst run = Raised (HTTPException HTTP_400_BAD_REQUEST None) /\
   trace (snd run) =
     [GetIdEmail "gho_token" (Returned ("42", "ada@example.org"));
      DecodeJwt (Malformed "not.a.jwt")
        (Raised (JWTException PyJWT.DecodeError))]).
Proof.
  split; [reflexivity |].
  apply (callback_translates_decode_error id Demo.audience
           Demo.bad_credentials Demo.github Demo.cookie Demo.secret 100 100
           "https://app.example" tt Demo.provider_token
           (Malformed "not.a.jwt") (Demo.resolver true) tt
           ("42", "ada@example.org") (JWTException PyJWT.DecodeError));
    reflexivity.
Defined.

(** The provider cannot be reached: its exception is the handler's. *)
Lemma authorize_provider_failure_passes_through_witness :
  let target :=
    Demo.url_for "https://app.example" "oauth:github.cookie.callback" in
  let extras : gmap string (option string) :=
    <["code_challenge_method" := None]> (<["code_challenge" := None]> ∅) in
  let run :=
    authorize id Demo.audience Demo.lifetime Demo.offline Demo.cookie
      Demo.secret None false Demo.url_for "https://app.example" None false
      None None None (start 0) in
  fst (get_authorization_url (BaseOAuth2 := Demo.offline) target issued_at_0
         None extras 0) =
    Raised (CollaboratorError "provider unreachable") /\
  (fst run = Raised (CollaboratorError "provider unreachable") /\
   trace (snd run) =
     [GetAuthorizationUrl target issued_at_0 None extras
        (Raised (CollaboratorError "provider unreachable"))]).
Proof.
  cbv zeta. split; [reflexivity |].
  apply (authorize_provider_failure_passes_through id Demo.audience
           Demo.lifetime Demo.offline Demo.cookie Demo.secret None false
           Demo.url_for 0 "https://app.example" None false None None None
           (CollaboratorError "provider unreachable")).
  reflexivity.
Defined.

(** The caller's mapping of another request is still what it was after
    the handler has run. *)
Lemma authorize_store_frame_witness :
  heap foreign_store !! 0%nat = Some foreign_data /\
  heap (snd (demo_authorize None false None None None foreign_store))
    !! 0%nat = Some foreign_data.
Proof.
  split; [reflexivity |].
  apply (authorize_store_frame id Demo.audience Demo.lifetime Demo.github
           Demo.cookie Demo.secret None false Demo.url_for
           "https://app.example" None false None None None foreign_store
           0%nat foreign_data).
  reflexivity.
Defined.

(** The login of the successful run was reached through the checks. *)
Lemma callback_login_only_after_checks_witness :
  let run := demo_callback (Demo.provider_token, issued_at_0)
               (Demo.resolver true) tt (start 100) in
  Login ada (Returned "session:42") ∈ trace (snd run) /\
  (is_active ada = true /\
   fst run = Returned "session:42" /\
   exists (id email : string) (payload : gmap string string),
     GetIdEmail "gho_token" (Returned (id, email)) ∈ trace (snd run) /\
     DecodeJwt issued_at_0 (Returned payload) ∈ trace (snd run) /\
     OAuthCallback
       {| oauth_name := "github"; access_token := "gho_token";
          expires_at := Some 7200; refresh_token := None;
          account_id := id; account_email := email |}
       (Returned ada) ∈ trace (snd run)).
Proof.
  cbv zeta.
  assert (Hcalled :
    Login ada (Returned "session:42")
    ∈ trace (snd (demo_callback (Demo.provider_token, issued_at_0)
                    (Demo.resolver true) tt (start 100)))).
  { vm_compute. do 3 apply list_elem_of_further. apply list_elem_of_here. }
  split; [exact Hcalled |].
  exact (callback_login_only_after_checks id Demo.audience
           Demo.bad_credentials Demo.github Demo.cookie Demo.secret 100
           "https://app.example" tt Demo.provider_token issued_at_0
           (Demo.resolver true) tt ada (Returned "session:42") Hcalled).
Defined.


(** Two tokens from the mapping that came with another audience. *)
Lemma generate_state_token_twice_witness :
  let m1 := snd (demo_generate_state_token 0%nat Demo.secret Demo.lifetime
                   foreign_store) in
  snd (demo_generate_state_token 0%nat Demo.secret Demo.lifetime m1) = m1 /\
  fst (demo_generate_state_token 0%nat Demo.secret Demo.lifetime m1) =
  fst (demo_generate_state_token 0%nat Demo.secret Demo.lifetime
         foreign_store).
Proof.
  apply (generate_state_token_twice id Demo.audience 0%nat Demo.secret
           Demo.lifetime foreign_store foreign_data).
  reflexivity.
Defined.

(** ** Route names *)

Lemma append_cons (c : ascii) (s t : string) :
  String c s ++ t = String c (s ++ t).
Proof. reflexivity. Qed.

Lemma append_nil (t : string) : EmptyString ++ t = t.
Proof. reflexivity. Qed.

Lemma string_length_app (s t : string) :
  String.length (s ++ t) = (String.length s + String.length t)%nat.
Proof.
  induction s as [| c s IH]; [reflexivity |].
  rewrite append_cons. cbn [String.length]. now rewrite IH.
Qed.

Lemma string_app_cancel_r (s1 s2 t : string) :
  s1 ++ t = s2 ++ t -> s1 = s2.
Proof.
  revert s2. induction s1 as [| c1 s1 IH]; intros [| c2 s2] H;
    rewrite ?append_cons, ?append_nil in H.
  - reflexivity.
  - apply (f_equal String.length) in H. cbn [String.length] in H.
    rewrite string_length_app in H. lia.
  - apply (f_equal String.length) in H. cbn [String.length] in H.
    rewrite string_length_app in H. lia.
  - injection H as -> H. f_equal. now apply IH.
Qed.

Lemma split_at_first_dot (s1 s2 r1 r2 : string) :
  contains_dot s1 = false -> contains_dot s2 = false ->
  s1 ++ String "." r1 = s2 ++ String "." r2 ->
  s1 = s2 /\ r1 = r2.
Proof.
  revert s2. induction s1 as [| c1 s1 IH]; intros [| c2 s2] H1 H2 H;
    rewrite ?append_cons, ?append_nil in H; cbn [contains_dot] in H1, H2.
  - injection H as ->. split; reflexivity.
  - injection H as <- _. rewrite bool_decide_eq_true_2 in H2 by reflexivity.
    discriminate H2.
  - injection H as -> _. rewrite bool_decide_eq_true_2 in H1 by reflexivity.
    discriminate H1.
  - injection H as -> H.
    apply orb_false_iff in H1 as [_ H1]. apply orb_false_iff in H2 as [_ H2].
    destruct (IH s2 H1 H2 H) as [-> ->]. split; reflexivity.
Qed.

(** X13.  Routers of providers whose names hold no dot get the same
    callback route name only when they are built for the same provider
    name and the same backend name. *)
Theorem callback_route_name_injective
    {World Strategy Response LoginResult : Type}
    (client1 client2 : BaseOAuth2 World)
    (backend1 backend2 :
       AuthenticationBackend World Strategy Response LoginResult) :
  contains_dot (client_name (BaseOAuth2 := client1)) = false ->
  contains_dot (client_name (BaseOAuth2 := client2)) = false ->
  callback_route_name client1 backend1 =
    callback_route_name client2 backend2 ->
  client_name (BaseOAuth2 := client1) = client_name (BaseOAuth2 := client2) /\
  backend_name (AuthenticationBackend := backend1) =
    backend_name (AuthenticationBackend := backend2).
Proof.
  intros H1 H2 Hname. unfold callback_route_name in Hname.
  rewrite !append_cons, !append_nil in Hname.
  injection Hname as Hname.
  destruct (split_at_first_dot _ _ _ _ H1 H2 Hname) as [Hclient Hbackend].
  split; [exact Hclient |].
  now apply string_app_cancel_r in Hbackend.
Qed.

(** Two sample routers with one route name are one provider and one
    backend. *)
Lemma callback_route_name_injective_witness :
  contains_dot "github" = false /\
  callback_route_name Demo.github Demo.cookie =
    callback_route_name Demo.offline Demo.cookie /\
  (client_name (BaseOAuth2 := Demo.github) =
     client_name (BaseOAuth2 := Demo.offline) /\
   backend_name (AuthenticationBackend := Demo.cookie) =
     backend_name (AuthenticationBackend := Demo.cookie)).
Proof.
  split; [reflexivity | split; [reflexivity |]].
  apply (callback_route_name_injective Demo.github Demo.offline Demo.cookie
           Demo.cookie); reflexivity.
Defined.

(** With a dot in a provider name the route names can collide: provider
    [a.b] with backend [c], and provider [a] with backend [b.c]. *)
Lemma callback_route_name_collision :
  "oauth:" ++ "a.b" ++ "." ++ "c" ++ ".callback" =
  "oauth:" ++ "a" ++ "." ++ "b.c" ++ ".callback".
Proof. reflexivity. Qed.
